(** * Vehicle number detection service ([number_plate1.py])

    A shallow embedding of the FastAPI service of [number_plate1.py] and
    the properties its specification states about it.

    The service has one module-level initialisation (the credential), one
    coroutine wrapping the external vision model ([analyze_vehicle_image]),
    one POST route ([handle_analysis_request]) and one GET route
    ([read_root]).  Everything the program does to the outside world is
    recorded as an [event] in a trace; the outside world itself (the image
    decoder and the hosted model) is a record of oracles the theorems
    quantify over. *)

From Stdlib Require Import NArith ZArith List Ascii String Lia.
From stdpp Require Import base option list strings gmap.

Local Open Scope Z_scope.

(** ** Python [str] values

    A Python [str] is a sequence of Unicode code points.  [==] compares
    code point by code point, [not s] is true exactly for the empty
    string, and [s.strip()] removes the characters for which
    [str.isspace] holds from both ends. *)

Module PyStr.

Abbreviation str := (list N).

(** A source literal made of ASCII characters only. *)
Definition lit (s : string) : str :=
  map N_of_ascii (list_ascii_of_string s).

(** [a == b] *)
Fixpoint eqb (a b : str) : bool :=
  match a, b with
  | [], [] => true
  | x :: a', y :: b' => N.eqb x y && eqb a' b'
  | _, _ => false
  end.

(** The code points CPython treats as whitespace
    (bidirectional type WS, B or S, or category Zs). *)
Definition isspace (c : N) : bool :=
  ((9 <=? c) && (c <=? 13)            (* \t \n \v \f \r *)
   || (28 <=? c) && (c <=? 32)        (* FS GS RS US and space *)
   || (c =? 133) || (c =? 160)        (* U+0085, U+00A0 *)
   || (c =? 5760)                     (* U+1680 *)
   || (8192 <=? c) && (c <=? 8202)    (* U+2000 .. U+200A *)
   || (c =? 8232) || (c =? 8233)      (* U+2028, U+2029 *)
   || (c =? 8239) || (c =? 8287)      (* U+202F, U+205F *)
   || (c =? 12288))%N.                (* U+3000 *)

(** [s.lstrip()]: skip the leading whitespace. *)
Fixpoint lstrip (s : str) : str :=
  match s with
  | [] => []
  | c :: s' => if isspace c then lstrip s' else s
  end.

(** [s.rstrip()]: the same scan from the right end. *)
Definition rstrip (s : str) : str := rev (lstrip (rev s)).

(** [s.strip()]: advance the left index, then retreat the right one. *)
Definition strip (s : str) : str := rstrip (lstrip s).

(** Truth value of a string: [bool(s)]. *)
Definition truthy (s : str) : bool :=
  match s with [] => false | _ :: _ => true end.

End PyStr.
Import PyStr.

(** ** Effects

    What the program does besides computing: reads of the process
    environment, calls into the [genai] and [PIL] libraries, lines written
    to standard output, and the read of the uploaded body.  A computation
    extends the trace of events and either raises or returns. *)

Module Eff.

Inductive event : Type :=
| EnvGet (name : string)            (* os.environ.get(name) *)
| Configure (api_key : str)         (* genai.configure(api_key=...) *)
| Print (line : str)                (* print(line) *)
| UploadRead                        (* await image.read() *)
| ImageOpen                         (* PIL.Image.open(stream) *)
| GenerateContent (model : string)  (* model.generate_content([...]) *)
| ResponseText.                     (* response.text *)

Definition trace := list event.

(** A computation that may raise an [E] or return an [A]. *)
Definition M (E A : Type) : Type := trace -> trace * (E + A).

Definition ret {E A} (a : A) : M E A := fun t => (t, inr a).

Definition raise {E A} (e : E) : M E A := fun t => (t, inl e).

Definition bind {E A B} (c : M E A) (k : A -> M E B) : M E B :=
  fun t =>
    match c t with
    | (t', inr a) => k a t'
    | (t', inl e) => (t', inl e)
    end.

(** [try: c  except Exception as e: h e] *)
Definition try_except {E E' A} (c : M E A) (h : E -> M E' A) : M E' A :=
  fun t =>
    match c t with
    | (t', inr a) => (t', inr a)
    | (t', inl e) => h e t'
    end.

Definition emit {E} (ev : event) : M E unit := fun t => (t ++ [ev], inr tt).

(** A call into a library: the event is recorded, then the library
    either raises or answers. *)
Definition call {E A} (ev : event) (outcome : E + A) : M E A :=
  fun t => (t ++ [ev], outcome).

Definition is_EnvGet (ev : event) : bool :=
  match ev with EnvGet _ => true | _ => false end.

Definition is_GenerateContent (ev : event) : bool :=
  match ev with GenerateContent _ => true | _ => false end.

Definition is_Print (ev : event) : bool :=
  match ev with Print _ => true | _ => false end.

(** How many events of a kind a trace holds. *)
Definition occurrences (p : event -> bool) (t : trace) : nat :=
  length (filter (fun ev => p ev = true) t).

End Eff.
Import Eff.

(** Sequencing is written with stdpp's monad notations:
    [x ← c; k] and [c;; k]. *)
#[global] Instance M_ret {E} : MRet (M E) := fun A a => ret a.
#[global] Instance M_bind {E} : MBind (M E) := fun A B k c => bind c k.

(** An exception that passes through a caller unchanged, seen at the
    caller's type of errors. *)
Definition propagate {E E' A} (inj : E -> E') (c : M E A) : M E' A :=
  fun t =>
    match c t with
    | (t', inr a) => (t', inr a)
    | (t', inl e) => (t', inl (inj e))
    end.

(** A constructor or pure call that raises or returns and leaves no
    event. *)
Definition outcome_of {E A} (o : E + A) : M E A := fun t => (t, o).

(** ** Values exchanged with the libraries *)

(** An instance of a subclass of [Exception]: its class and [str(e)]. *)
Record exn : Type := Exception { exn_class : string; exn_str : str }.

(** [fastapi.HTTPException(status_code=..., detail=...)] as the source
    builds it: the detail it is given is the caught exception. *)
Record HTTPException : Type :=
  mkHTTPException { status_code : Z; detail : exn }.

(** [fastapi.responses.JSONResponse]: a body and a status. *)
Record JSONResponse : Type :=
  mkJSONResponse { content : gmap string str; resp_status_code : Z }.

(** What a request can end with instead of a response: the
    [HTTPException] of line 69, or the [UnicodeEncodeError] a
    [JSONResponse] raises when its body cannot be encoded. *)
Inductive request_error : Type :=
| RaisedHTTP (h : HTTPException)
| UnicodeEncodeError.

(** The code points UTF-8 has no encoding for: the surrogates
    U+D800 .. U+DFFF. *)
Definition is_surrogate (c : N) : bool :=
  ((55296 <=? c) && (c <=? 57343))%N.

(** [s.encode("utf-8")] succeeds. *)
Definition utf8_encodable (s : str) : bool :=
  forallb (fun c => negb (is_surrogate c)) s.

(** [json.dumps(d, ensure_ascii=False, ...).encode("utf-8")] succeeds:
    the keys are ASCII, so it is a matter of the values. *)
Definition body_encodable (d : gmap string str) : bool :=
  forallb (fun kv => utf8_encodable (snd kv)) (map_to_list d).

(** [JSONResponse(content=d)]: the body is rendered to UTF-8 bytes when
    the object is built, which raises on a string that holds a
    surrogate; the status defaults to 200. *)
Definition JSONResponse_of (d : gmap string str)
  : request_error + JSONResponse :=
  if body_encodable d then inr (mkJSONResponse d 200)
  else inl UnicodeEncodeError.

(** [fastapi.UploadFile]: the uploaded body. *)
Record UploadFile : Type := mkUploadFile { file : list Byte.byte }.

(** The libraries the module imports, as oracles: each call either raises
    an [Exception] or answers. *)
Record External (image response : Type) : Type := mkExternal {
  genai_configure : str -> exn + unit;
  PIL_Image_open : list Byte.byte -> exn + image;
  generate_content : string -> str -> image -> exn + response;
  response_text : response -> exn + str
}.
Arguments genai_configure {image response} _ _.
Arguments PIL_Image_open {image response} _ _.
Arguments generate_content {image response} _ _ _ _.
Arguments response_text {image response} _ _.

(** [os.environ.get(name)] *)
Definition environ_get {E} (environ : gmap string str) (name : string)
  : M E (option str) :=
  call (EnvGet name) (inr (environ !! name)).

(** [not v] for a value that is [None] or a string. *)
Definition py_not (v : option str) : bool :=
  match v with
  | None => true
  | Some s => negb (truthy s)
  end.

(** [print(line)]; writing to standard output is taken to succeed. *)
Definition print {E} (line : str) : M E unit := emit (Print line).

(** [await image.read()] *)
Definition read {E} (image : UploadFile) : M E (list Byte.byte) :=
  call UploadRead (inr (file image)).

(** [io.BytesIO(b)]: an in-memory stream over the same bytes. *)
Definition BytesIO (b : list Byte.byte) : list Byte.byte := b.

(** ** The program *)

(** The model identifier of line 48. *)
Definition MODEL_NAME : string := "gemini-2.0-flash".

(** The instruction text of lines 50-57, with its line breaks and
    indentation. *)
Definition prompt : str := lit "
        Analyze the provided image. Your primary task is to identify and extract a vehicle's registration number from its license plate.

        Follow these rules strictly:
        1. If you find a clear license plate, provide ONLY the extracted registration number in a machine-readable format (e.g., MH12AB3456). Do not add any extra words.
        2. If the image does not contain a vehicle, respond with the exact text: NO_VEHICLE_FOUND
        3. If the image contains a vehicle but the license plate is not visible or is unreadable, respond with the exact text: PLATE_UNREADABLE
        ".

(** The f-strings of lines 20 and 67: [{e}] formats [str(e)]. *)
Definition configure_failed_line (e : exn) : str :=
  lit "Failed to configure Generative AI: " ++ exn_str e.

Definition analysis_failed_line (e : exn) : str :=
  lit "An error occurred during Gemini analysis: " ++ exn_str e.

(** Lines 88-100: the dictionary the handler fills in from the adapter's
    reply.  It starts empty and each assignment inserts one key. *)
Definition response_data_of (result_text : str) : gmap string str :=
  let response_data : gmap string str := ∅ in
  if eqb result_text (lit "NO_VEHICLE_FOUND") then
    let response_data := <["code" := lit "NO_VEHICLE"]> response_data in
    <["message" :=
        lit "The uploaded image does not appear to contain a vehicle."]>
      response_data
  else if eqb result_text (lit "PLATE_UNREADABLE") then
    let response_data := <["code" := lit "PLATE_UNREADABLE"]> response_data in
    <["message" :=
        lit "A vehicle was found, but the license plate could not be read."]>
      response_data
  else
    let response_data := <["code" := lit "SUCCESS"]> response_data in
    let response_data :=
      <["message" := lit "Successfully extracted vehicle number."]>
        response_data in
    <["vehicle_number" := result_text]> response_data.

Section Program.

Context {image response : Type}.

(** The [genai] and [PIL] modules the program imports. *)
Variable ext : External image response.

(** The string literal of line 15.  It is a credential: the model keeps
    it a parameter instead of repeating its characters, and no property
    below depends on them. *)
Variable FALLBACK_API_KEY : str.

(** Lines 11-22, run once when the module is imported; the value is the
    module global [API_KEY]. *)
Definition module_init (environ : gmap string str) : M exn str :=
  API_KEY ← environ_get environ "GOOGLE_API_KEY";
  let API_KEY : str :=
    if py_not API_KEY then FALLBACK_API_KEY else default [] API_KEY in
  try_except
    (call (Configure API_KEY) (genai_configure ext API_KEY))
    (fun e => print (configure_failed_line e));;
  mret API_KEY.

(** Lines 41-63: the body of the [try] block. *)
Definition analysis_attempt (image_bytes : list Byte.byte) : M exn str :=
  let image_stream := BytesIO image_bytes in
  img ← call ImageOpen (PIL_Image_open ext image_stream);
  response ←
    call (GenerateContent MODEL_NAME)
         (generate_content ext MODEL_NAME prompt img);
  text ← call ResponseText (response_text ext response);
  mret (strip text).

(** Lines 35-69. *)
Definition analyze_vehicle_image (image_bytes : list Byte.byte)
  : M HTTPException str :=
  try_except
    (analysis_attempt image_bytes)
    (fun e =>
       print (analysis_failed_line e);;
       raise (mkHTTPException 500 e)).

(** Lines 74-103. *)
Definition handle_analysis_request (image : UploadFile)
  : M request_error JSONResponse :=
  image_bytes ← read image;
  result_text ← propagate RaisedHTTP (analyze_vehicle_image image_bytes);
  let response_data := response_data_of result_text in
  outcome_of (JSONResponse_of response_data).

(** Lines 106-108. *)
Definition read_root : M HTTPException (gmap string str) :=
  mret {[ "status" := lit "Vehicle Analysis API is running." ]}.

End Program.

(** ** What the framework sends

    FastAPI answers a route that returns a response object with that
    object's status and body, and a route that returns a plain dictionary
    with status 200.  A raised [HTTPException] goes to the exception
    handler, which answers with the exception's status: without a body
    for a status that allows none, otherwise with the JSON body
    [{"detail": exc.detail}].  Here the detail is an exception object,
    which [json.dumps] refuses with a [TypeError]; that error, like any
    other exception that leaves the route, reaches the server-error
    middleware, which answers 500 with the fixed text
    [Internal Server Error] (the application is built without
    [debug=True], lines 27-31). *)

Inductive wire_body : Type :=
| JsonBody (d : gmap string str)
| TextBody (s : str)
| NoBody.

Record wire_response : Type :=
  mkWire { wire_status : Z; wire_content : wire_body }.

Definition internal_server_error : wire_response :=
  mkWire 500 (TextBody (lit "Internal Server Error")).

(** [fastapi.utils.is_body_allowed_for_status_code] on an integer. *)
Definition is_body_allowed_for_status_code (status : Z) : bool :=
  negb ((status <? 200) || (status =? 204) || (status =? 205)
        || (status =? 304)).

(** [fastapi.exception_handlers.http_exception_handler] followed by the
    server-error middleware, for a detail that is an exception object. *)
Definition http_exception_handler (h : HTTPException) : wire_response :=
  if is_body_allowed_for_status_code (status_code h)
  then internal_server_error
  else mkWire (status_code h) NoBody.

(** What the client of [POST /analyze] receives. *)
Definition sent_to_client (o : request_error + JSONResponse)
  : wire_response :=
  match o with
  | inr resp => mkWire (resp_status_code resp) (JsonBody (content resp))
  | inl (RaisedHTTP h) => http_exception_handler h
  | inl UnicodeEncodeError => internal_server_error
  end.

Definition http_status_of_response (o : request_error + JSONResponse) : Z :=
  wire_status (sent_to_client o).

Definition http_status_of_dict (r : HTTPException + gmap string str) : Z :=
  match r with
  | inl h => status_code h
  | inr _ => 200
  end.

(** ** Sample worlds

    Concrete libraries and uploads on which the definitions are run. *)

Module Samples.

Definition cannot_identify : exn :=
  Exception "UnidentifiedImageError" (lit "cannot identify image file").

Definition quota_exceeded : exn :=
  Exception "ResourceExhausted" (lit "429 quota exceeded").

Definition no_valid_part : exn :=
  Exception "ValueError" (lit "response.text requires a valid Part").

Definition bad_key : exn :=
  Exception "ValueError" (lit "invalid api key").

(** A decoder that rejects the empty body and a model that answers
    [text] to every image. *)
Definition answering (text : str) : External (list Byte.byte) str :=
  {| genai_configure := fun _ => inr tt;
     PIL_Image_open := fun b =>
       match b with
       | [] => inl cannot_identify
       | _ :: _ => inr b
       end;
     generate_content := fun _ _ _ => inr text;
     response_text := fun r => inr r |}.

(** The model call fails. *)
Definition out_of_quota : External (list Byte.byte) str :=
  {| genai_configure := fun _ => inr tt;
     PIL_Image_open := fun b => inr b;
     generate_content := fun _ _ _ => inl quota_exceeded;
     response_text := fun r => inr r |}.

(** The model answers, but the answer carries no text. *)
Definition empty_candidate : External (list Byte.byte) unit :=
  {| genai_configure := fun _ => inr tt;
     PIL_Image_open := fun b => inr b;
     generate_content := fun _ _ _ => inr tt;
     response_text := fun _ => inl no_valid_part |}.

(** [genai.configure] itself raises. *)
Definition misconfigured : External (list Byte.byte) str :=
  {| genai_configure := fun _ => inl bad_key;
     PIL_Image_open := fun b => inr b;
     generate_content := fun _ _ _ => inl quota_exceeded;
     response_text := fun r => inr r |}.

Definition photo : UploadFile :=
  mkUploadFile [Byte.xff; Byte.xd8; Byte.xff; Byte.xe0].

Definition empty_upload : UploadFile := mkUploadFile [].

Definition some_key : str := lit "fallback-key".

End Samples.

(** ** Further kinds of events, for counting *)

Definition is_UploadRead (ev : event) : bool :=
  match ev with UploadRead => true | _ => false end.

Definition is_ImageOpen (ev : event) : bool :=
  match ev with ImageOpen => true | _ => false end.

Definition is_Configure (ev : event) : bool :=
  match ev with Configure _ => true | _ => false end.

Definition is_ResponseText (ev : event) : bool :=
  match ev with ResponseText => true | _ => false end.

(** ** Proof steps used throughout *)

(** Unfold the program and the monad down to traces. *)
Ltac run :=
  unfold handle_analysis_request, analyze_vehicle_image, analysis_attempt,
    module_init, read_root, environ_get, read, print, emit, call,
    try_except, raise, mbind, mret, M_bind, M_ret, bind, ret, BytesIO in *;
  simpl in *.

Ltac tidy_trace := rewrite <- ?app_assoc; simpl.

(** Counting events in an explicit list. *)
Ltac count_events :=
  repeat split; unfold occurrences; simpl; repeat case_decide;
  simpl; try congruence; try lia.

(** * Properties *)

(** ** Facts about [str] *)

Section StrFacts.

Lemma eqb_refl (a : str) : eqb a a = true.
Proof.
  induction a as [|x a IH]; simpl; [reflexivity|].
  rewrite N.eqb_refl. exact IH.
Qed.

(** [==] is equality of the code point sequences: nothing is folded,
    in particular not the letter case. *)
Lemma eqb_eq (a b : str) : eqb a b = true <-> a = b.
Proof.
  split.
  - revert b. induction a as [|x a IH]; intros [|y b] H; simpl in H;
      try discriminate; [reflexivity|].
    apply andb_prop in H. destruct H as [Hx Hab].
    apply N.eqb_eq in Hx. apply IH in Hab. congruence.
  - intros ->. apply eqb_refl.
Qed.

Lemma eqb_neq (a b : str) : eqb a b = false <-> a <> b.
Proof.
  rewrite <- eqb_eq. destruct (eqb a b); split; congruence.
Qed.

(** What [lstrip] drops is whitespace, and it stops at the first
    character that is not. *)
Lemma lstrip_split (s : str) :
  exists l, s = l ++ lstrip s /\ Forall (fun c => isspace c = true) l.
Proof.
  induction s as [|c s IH]; simpl.
  - exists []. split; [reflexivity | constructor].
  - destruct (isspace c) eqn:Hc.
    + destruct IH as (l & Hs & Hl). exists (c :: l). split.
      * simpl. congruence.
      * constructor; assumption.
    + exists []. split; [reflexivity | constructor].
Qed.

Lemma lstrip_head (s : str) (c : N) :
  head (lstrip s) = Some c -> isspace c = false.
Proof.
  induction s as [|x s IH]; simpl; [discriminate|].
  destruct (isspace x) eqn:Hx; [exact IH|].
  simpl. intros [= <-]. exact Hx.
Qed.

Lemma rstrip_split (s : str) :
  exists r, s = rstrip s ++ r /\ Forall (fun c => isspace c = true) r.
Proof.
  unfold rstrip. destruct (lstrip_split (rev s)) as (l & Hs & Hl).
  exists (rev l). split.
  - rewrite <- rev_app_distr, <- Hs. symmetry. apply rev_involutive.
  - apply Forall_forall. intros c Hc. rewrite list_elem_of_In in Hc.
    apply in_rev in Hc. rewrite Forall_forall in Hl. apply Hl.
    apply list_elem_of_In. exact Hc.
Qed.

Lemma last_rev_head (s : str) : last (rev s) = head s.
Proof.
  destruct s as [|c s]; [reflexivity|].
  simpl. apply last_snoc.
Qed.

Lemma rstrip_last (s : str) (c : N) :
  last (rstrip s) = Some c -> isspace c = false.
Proof.
  unfold rstrip. rewrite last_rev_head. apply lstrip_head.
Qed.

(** [strip] cuts a run of whitespace from each end and leaves a text
    that neither starts nor ends with whitespace. *)
Lemma strip_spec (s : str) :
  exists l r,
    s = l ++ strip s ++ r
    /\ Forall (fun c => isspace c = true) l
    /\ Forall (fun c => isspace c = true) r
    /\ (forall c, head (strip s) = Some c -> isspace c = false)
    /\ (forall c, last (strip s) = Some c -> isspace c = false).
Proof.
  unfold strip.
  destruct (lstrip_split s) as (l & Hs & Hl).
  destruct (rstrip_split (lstrip s)) as (r & Hm & Hr).
  exists l, r. repeat split; try assumption.
  - rewrite <- Hm. exact Hs.
  - intros c Hc. apply (lstrip_head s).
    rewrite Hm. destruct (rstrip (lstrip s)); [discriminate | exact Hc].
  - apply rstrip_last.
Qed.

(** The string literals the handler compares with and writes. *)
Lemma sentinels_distinct : lit "NO_VEHICLE_FOUND" <> lit "PLATE_UNREADABLE".
Proof. discriminate. Qed.

End StrFacts.

(** ** Running the program *)

Section Runs.

Context {image response : Type}.
Variable ext : External image response.

(** The [try] block, step by step: each library call is made at most
    once, in order, and the first one that raises ends the block. *)
Lemma analysis_attempt_run (b : list Byte.byte) (t : trace) :
  analysis_attempt ext b t =
    match PIL_Image_open ext b with
    | inl e => (t ++ [ImageOpen], inl e)
    | inr img =>
        match generate_content ext MODEL_NAME prompt img with
        | inl e => (t ++ [ImageOpen; GenerateContent MODEL_NAME], inl e)
        | inr resp =>
            match response_text ext resp with
            | inl e =>
                (t ++ [ImageOpen; GenerateContent MODEL_NAME; ResponseText],
                 inl e)
            | inr text =>
                (t ++ [ImageOpen; GenerateContent MODEL_NAME; ResponseText],
                 inr (strip text))
            end
        end
    end.
Proof.
  run.
  destruct (PIL_Image_open ext b) as [e|img]; [reflexivity|].
  destruct (generate_content ext MODEL_NAME prompt img) as [e|resp];
    tidy_trace; [reflexivity|].
  destruct (response_text ext resp) as [e|text]; tidy_trace; reflexivity.
Qed.


Lemma analyze_of_attempt_ok (b : list Byte.byte) (t t1 : trace) (r : str) :
  analysis_attempt ext b t = (t1, inr r) ->
  analyze_vehicle_image ext b t = (t1, inr r).
Proof.
  intros H. unfold analyze_vehicle_image, try_except. rewrite H. reflexivity.
Qed.

Lemma analyze_of_attempt_raise (b : list Byte.byte) (t t1 : trace) (e : exn) :
  analysis_attempt ext b t = (t1, inl e) ->
  analyze_vehicle_image ext b t =
    (t1 ++ [Print (analysis_failed_line e)], inl (mkHTTPException 500 e)).
Proof.
  intros H. unfold analyze_vehicle_image, try_except. rewrite H.
  reflexivity.
Qed.

(** The adapter returns only what the [try] block returned. *)
Lemma analyze_ok_inv (b : list Byte.byte) (t t1 : trace) (r : str) :
  analyze_vehicle_image ext b t = (t1, inr r) ->
  analysis_attempt ext b t = (t1, inr r).
Proof.
  unfold analyze_vehicle_image, try_except.
  destruct (analysis_attempt ext b t) as [t' [e|r']].
  - run. discriminate.
  - intros [= -> ->]. reflexivity.
Qed.

(** The handler reads the upload, asks the adapter, and wraps the
    dictionary built from the reply; an adapter error passes through. *)
Lemma handle_run (img : UploadFile) (t : trace) :
  handle_analysis_request ext img t =
    match analyze_vehicle_image ext (file img) (t ++ [UploadRead]) with
    | (t', inr r) => (t', JSONResponse_of (response_data_of r))
    | (t', inl h) => (t', inl (RaisedHTTP h))
    end.
Proof.
  unfold handle_analysis_request, read, call, propagate, outcome_of,
    mbind, mret, M_bind, M_ret, bind, ret.
  destruct (analyze_vehicle_image ext (file img) (t ++ [UploadRead]))
    as [t' [h|r]]; reflexivity.
Qed.

End Runs.

(** ** The dictionary of lines 88-100 *)

Lemma response_data_no_vehicle :
  response_data_of (lit "NO_VEHICLE_FOUND") =
    {[ "code" := lit "NO_VEHICLE";
       "message" :=
         lit "The uploaded image does not appear to contain a vehicle." ]}.
Proof. apply map_eq. intros k. vm_compute. reflexivity. Qed.

Lemma response_data_unreadable :
  response_data_of (lit "PLATE_UNREADABLE") =
    {[ "code" := lit "PLATE_UNREADABLE";
       "message" :=
         lit "A vehicle was found, but the license plate could not be read." ]}.
Proof. apply map_eq. intros k. vm_compute. reflexivity. Qed.

Lemma response_data_plate (r : str) :
  r <> lit "NO_VEHICLE_FOUND" ->
  r <> lit "PLATE_UNREADABLE" ->
  response_data_of r =
    {[ "code" := lit "SUCCESS";
       "message" := lit "Successfully extracted vehicle number.";
       "vehicle_number" := r ]}.
Proof.
  intros H1 H2. unfold response_data_of.
  apply eqb_neq in H1. apply eqb_neq in H2. rewrite H1, H2.
  cbv zeta. apply map_eq. intros k.
  rewrite <- (insert_empty "vehicle_number" r).
  rewrite !lookup_insert.
  repeat case_decide; subst; try reflexivity; discriminate.
Qed.

(** The code the handler writes, for each of the three branches. *)
Lemma response_data_code (r : str) :
  response_data_of r !! "code" =
    Some (if eqb r (lit "NO_VEHICLE_FOUND") then lit "NO_VEHICLE"
          else if eqb r (lit "PLATE_UNREADABLE") then lit "PLATE_UNREADABLE"
          else lit "SUCCESS").
Proof.
  unfold response_data_of.
  destruct (eqb r (lit "NO_VEHICLE_FOUND")); [reflexivity|].
  destruct (eqb r (lit "PLATE_UNREADABLE")); reflexivity.
Qed.

(** The plate number is written in the last branch only. *)
Lemma response_data_vehicle_number (r : str) :
  response_data_of r !! "vehicle_number" =
    if eqb r (lit "NO_VEHICLE_FOUND") then None
    else if eqb r (lit "PLATE_UNREADABLE") then None
    else Some r.
Proof.
  unfold response_data_of.
  destruct (eqb r (lit "NO_VEHICLE_FOUND")); [reflexivity|].
  destruct (eqb r (lit "PLATE_UNREADABLE")); [reflexivity|].
  cbv zeta. apply lookup_insert_eq.
Qed.

Lemma response_data_message (r : str) :
  response_data_of r !! "message" =
    Some (if eqb r (lit "NO_VEHICLE_FOUND")
          then lit "The uploaded image does not appear to contain a vehicle."
          else if eqb r (lit "PLATE_UNREADABLE")
          then lit "A vehicle was found, but the license plate could not be read."
          else lit "Successfully extracted vehicle number.").
Proof.
  unfold response_data_of.
  destruct (eqb r (lit "NO_VEHICLE_FOUND")); [reflexivity|].
  destruct (eqb r (lit "PLATE_UNREADABLE")); reflexivity.
Qed.

Lemma codes_distinct :
  lit "NO_VEHICLE" <> lit "PLATE_UNREADABLE"
  /\ lit "NO_VEHICLE" <> lit "SUCCESS"
  /\ lit "PLATE_UNREADABLE" <> lit "SUCCESS".
Proof. repeat split; discriminate. Qed.

(** ** Building the response of line 103 *)

Lemma body_encodable_spec (d : gmap string str) :
  body_encodable d = true
  <-> map_Forall (fun _ v => utf8_encodable v = true) d.
Proof.
  unfold body_encodable. rewrite map_Forall_to_list, forallb_forall.
  rewrite Forall_forall. split.
  - intros H [k v] Hin. apply (H (k, v)). apply list_elem_of_In. exact Hin.
  - intros H [k v] Hin. apply (H (k, v)). apply list_elem_of_In. exact Hin.
Qed.

(** The only value of the dictionary that is not a literal of the source
    is the reply, so the body can be encoded exactly when the reply can. *)
Lemma body_encodable_response_data (r : str) :
  body_encodable (response_data_of r) = utf8_encodable r.
Proof.
  unfold response_data_of.
  destruct (eqb r (lit "NO_VEHICLE_FOUND")) eqn:H1.
  { apply eqb_eq in H1. subst r. vm_compute. reflexivity. }
  destruct (eqb r (lit "PLATE_UNREADABLE")) eqn:H2.
  { apply eqb_eq in H2. subst r. vm_compute. reflexivity. }
  cbv zeta. apply eq_true_iff_eq. rewrite body_encodable_spec.
  rewrite !map_Forall_insert by (vm_compute; reflexivity).
  split.
  - intros [H _]. exact H.
  - intros H. repeat split; try exact H; try (vm_compute; reflexivity).
    apply map_Forall_empty.
Qed.

Lemma JSONResponse_of_response_data (r : str) :
  JSONResponse_of (response_data_of r) =
    if utf8_encodable r then inr (mkJSONResponse (response_data_of r) 200)
    else inl UnicodeEncodeError.
Proof.
  unfold JSONResponse_of. rewrite body_encodable_response_data. reflexivity.
Qed.

Lemma sentinels_encodable :
  utf8_encodable (lit "NO_VEHICLE_FOUND") = true
  /\ utf8_encodable (lit "PLATE_UNREADABLE") = true.
Proof. split; reflexivity. Qed.

(** ** The request handler *)

Section Handler.

Context {image response : Type}.
Variable ext : External image response.

(** C1, as the code has it.  Whatever string [r] without a surrogate code
    point the adapter returns, the handler answers with status 200 and a
    payload chosen by exact string equality: the reply [NO_VEHICLE_FOUND]
    gives code [NO_VEHICLE] with its message, the reply
    [PLATE_UNREADABLE] gives code [PLATE_UNREADABLE] with its message, and
    any other reply gives code [SUCCESS], the success message and
    [vehicle_number = r]. *)
Theorem handler_classifies_reply (img : UploadFile) (t t' : trace) (r : str)
    (Hreply :
       analyze_vehicle_image ext (file img) (t ++ [UploadRead]) = (t', inr r))
    (Hencodable : utf8_encodable r = true) :
  exists resp,
    handle_analysis_request ext img t = (t', inr resp)
    /\ http_status_of_response (inr resp) = 200
    /\ sent_to_client (inr resp) = mkWire 200 (JsonBody (content resp))
    /\ (r = lit "NO_VEHICLE_FOUND" ->
        content resp =
          {[ "code" := lit "NO_VEHICLE";
             "message" :=
               lit "The uploaded image does not appear to contain a vehicle." ]})
    /\ (r = lit "PLATE_UNREADABLE" ->
        content resp =
          {[ "code" := lit "PLATE_UNREADABLE";
             "message" :=
               lit "A vehicle was found, but the license plate could not be read." ]})
    /\ (r <> lit "NO_VEHICLE_FOUND" -> r <> lit "PLATE_UNREADABLE" ->
        content resp =
          {[ "code" := lit "SUCCESS";
             "message" := lit "Successfully extracted vehicle number.";
             "vehicle_number" := r ]}).
Proof.
  exists (mkJSONResponse (response_data_of r) 200).
  split.
  { rewrite handle_run, Hreply, JSONResponse_of_response_data, Hencodable.
    reflexivity. }
  split; [reflexivity|]. split; [reflexivity|]. simpl.
  split; [intros ->; apply response_data_no_vehicle|].
  split; [intros ->; apply response_data_unreadable|].
  apply response_data_plate.
Qed.

(** C3. In every payload the handler produces, [vehicle_number] is present
    exactly when the code is [SUCCESS]; when the adapter's reply is one of
    the two reserved strings the payload has no [vehicle_number]. *)
Theorem vehicle_number_iff_success (img : UploadFile) (t t' : trace)
    (resp : JSONResponse)
    (Hrun : handle_analysis_request ext img t = (t', inr resp)) :
  (is_Some (content resp !! "vehicle_number")
   <-> content resp !! "code" = Some (lit "SUCCESS"))
  /\ (forall r,
        analyze_vehicle_image ext (file img) (t ++ [UploadRead]) = (t', inr r) ->
        r = lit "NO_VEHICLE_FOUND" \/ r = lit "PLATE_UNREADABLE" ->
        content resp !! "vehicle_number" = None).
Proof.
  rewrite handle_run in Hrun.
  destruct (analyze_vehicle_image ext (file img) (t ++ [UploadRead]))
    as [t1 [h|r0]]; [discriminate|].
  rewrite JSONResponse_of_response_data in Hrun.
  destruct (utf8_encodable r0); [|discriminate].
  injection Hrun as <- <-. simpl.
  rewrite response_data_vehicle_number, response_data_code.
  split.
  - destruct (eqb r0 (lit "NO_VEHICLE_FOUND")).
    { split; [intros [? [=]] | intros [=]]. }
    destruct (eqb r0 (lit "PLATE_UNREADABLE")).
    { split; [intros [? [=]] | intros [=]]. }
    split; [reflexivity | eauto].
  - intros r [= <-] [-> | ->]; reflexivity.
Qed.

(** C6. The outcome is a function of the adapter's reply alone: two runs
    of the handler on the same upload in which the adapter replies the
    same string, whatever the libraries and the earlier events of each
    run, end the same way, namely with what building the response from
    the dictionary of that reply gives; for a reply that can be encoded
    that is the response with this dictionary and status 200. *)
Theorem handler_deterministic {image' response' : Type}
    (ext' : External image' response')
    (img : UploadFile) (t1 t1' t2 t2' : trace) (r : str)
    (Hfirst :
       analyze_vehicle_image ext (file img) (t1 ++ [UploadRead]) = (t1', inr r))
    (Hsecond :
       analyze_vehicle_image ext' (file img) (t2 ++ [UploadRead]) = (t2', inr r)) :
  snd (handle_analysis_request ext img t1)
  = snd (handle_analysis_request ext' img t2)
  /\ snd (handle_analysis_request ext img t1)
     = JSONResponse_of (response_data_of r)
  /\ (utf8_encodable r = true ->
      snd (handle_analysis_request ext img t1)
      = inr (mkJSONResponse (response_data_of r) 200)).
Proof.
  rewrite !handle_run, Hfirst, Hsecond. simpl.
  split; [reflexivity|]. split; [reflexivity|].
  intros Henc. rewrite JSONResponse_of_response_data, Henc. reflexivity.
Qed.

End Handler.

(** C5. Every adapter reply falls in exactly one of the three branches:
    the code written is exactly one of [NO_VEHICLE], [PLATE_UNREADABLE]
    and [SUCCESS], the first two exactly for the two reserved strings, and
    any other text is stored as [vehicle_number] unchanged, whatever its
    shape. *)
Theorem classification_exclusive_exhaustive (r : str) :
  let code := response_data_of r !! "code" in
  ((code = Some (lit "NO_VEHICLE")
    /\ code <> Some (lit "PLATE_UNREADABLE") /\ code <> Some (lit "SUCCESS"))
   \/ (code <> Some (lit "NO_VEHICLE")
       /\ code = Some (lit "PLATE_UNREADABLE") /\ code <> Some (lit "SUCCESS"))
   \/ (code <> Some (lit "NO_VEHICLE")
       /\ code <> Some (lit "PLATE_UNREADABLE") /\ code = Some (lit "SUCCESS")))
  /\ (code = Some (lit "NO_VEHICLE") <-> r = lit "NO_VEHICLE_FOUND")
  /\ (code = Some (lit "PLATE_UNREADABLE") <-> r = lit "PLATE_UNREADABLE")
  /\ (code = Some (lit "SUCCESS") <->
      r <> lit "NO_VEHICLE_FOUND" /\ r <> lit "PLATE_UNREADABLE")
  /\ (code = Some (lit "SUCCESS") ->
      response_data_of r !! "vehicle_number" = Some r).
Proof.
  cbv zeta. rewrite response_data_code, response_data_vehicle_number.
  destruct (eqb r (lit "NO_VEHICLE_FOUND")) eqn:H1.
  { apply eqb_eq in H1. subst r.
    repeat split; try discriminate; auto; try (intros [? ?]; congruence). }
  apply eqb_neq in H1.
  destruct (eqb r (lit "PLATE_UNREADABLE")) eqn:H2.
  { apply eqb_eq in H2. subst r.
    split; [right; left; repeat split; discriminate|].
    repeat split; try discriminate; auto; try (intros [? ?]; congruence). }
  apply eqb_neq in H2.
  split; [right; right; repeat split; discriminate|].
  repeat split; try discriminate; auto; try congruence.
Qed.

(** C7. The health check takes no argument, adds no event to the trace,
    never raises, and answers the fixed body
    [{"status": "Vehicle Analysis API is running."}] with status 200. *)
Theorem read_root_fixed (t : trace) :
  read_root t
  = (t, inr {[ "status" := lit "Vehicle Analysis API is running." ]})
  /\ http_status_of_dict (snd (read_root t)) = 200.
Proof. split; reflexivity. Qed.

(** ** The recognition adapter *)

Section Adapter.

Context {image response : Type}.
Variable ext : External image response.


(** C4, as the code has it.  When the decoder and the model answer and
    the reply carries the text [text], the adapter returns [strip text]:
    [text] without a leading and a trailing run of whitespace, a string
    that neither starts nor ends with whitespace.  If that string is not
    empty, is none of the two reserved strings and holds no surrogate
    code point, the handler answers [SUCCESS] with [vehicle_number] equal
    to it, code point for code point. *)
Theorem adapter_trims_and_handler_keeps
    (img : UploadFile) (t : trace)
    (decoded : image) (reply : response) (text : str)
    (Hopen : PIL_Image_open ext (file img) = inr decoded)
    (Hmodel : generate_content ext MODEL_NAME prompt decoded = inr reply)
    (Htext : response_text ext reply = inr text) :
  let t' :=
    t ++ [UploadRead; ImageOpen; GenerateContent MODEL_NAME; ResponseText] in
  analyze_vehicle_image ext (file img) (t ++ [UploadRead])
  = (t', inr (strip text))
  /\ (exists l r,
        text = l ++ strip text ++ r
        /\ Forall (fun c => isspace c = true) l
        /\ Forall (fun c => isspace c = true) r
        /\ (forall c, head (strip text) = Some c -> isspace c = false)
        /\ (forall c, last (strip text) = Some c -> isspace c = false))
  /\ (strip text <> [] ->
      strip text <> lit "NO_VEHICLE_FOUND" ->
      strip text <> lit "PLATE_UNREADABLE" ->
      utf8_encodable (strip text) = true ->
      exists resp,
        handle_analysis_request ext img t = (t', inr resp)
        /\ resp_status_code resp = 200
        /\ content resp !! "code" = Some (lit "SUCCESS")
        /\ content resp !! "vehicle_number" = Some (strip text)).
Proof.
  cbv zeta.
  assert (Hrun : analyze_vehicle_image ext (file img) (t ++ [UploadRead])
                 = (t ++ [UploadRead; ImageOpen; GenerateContent MODEL_NAME;
                          ResponseText], inr (strip text))).
  { apply analyze_of_attempt_ok. rewrite analysis_attempt_run.
    rewrite Hopen, Hmodel, Htext. tidy_trace. reflexivity. }
  split; [exact Hrun|]. split; [apply strip_spec|].
  intros _ Hnv Hpu Henc.
  exists (mkJSONResponse (response_data_of (strip text)) 200).
  split.
  { rewrite handle_run, Hrun, JSONResponse_of_response_data, Henc.
    reflexivity. }
  split; [reflexivity|]. simpl.
  rewrite response_data_code, response_data_vehicle_number.
  apply eqb_neq in Hnv. apply eqb_neq in Hpu. rewrite Hnv, Hpu.
  split; reflexivity.
Qed.

(** C9. A reply that is empty once trimmed goes through the last branch
    as well: the handler answers status 200 with code [SUCCESS], the
    success message and an empty [vehicle_number]. *)
Theorem empty_reply_is_success
    (img : UploadFile) (t : trace)
    (decoded : image) (reply : response) (text : str)
    (Hopen : PIL_Image_open ext (file img) = inr decoded)
    (Hmodel : generate_content ext MODEL_NAME prompt decoded = inr reply)
    (Htext : response_text ext reply = inr text)
    (Hblank : strip text = []) :
  exists resp,
    handle_analysis_request ext img t
    = (t ++ [UploadRead; ImageOpen; GenerateContent MODEL_NAME; ResponseText],
       inr resp)
    /\ resp_status_code resp = 200
    /\ content resp =
         {[ "code" := lit "SUCCESS";
            "message" := lit "Successfully extracted vehicle number.";
            "vehicle_number" := [] ]}.
Proof.
  exists (mkJSONResponse (response_data_of []) 200).
  split.
  - rewrite handle_run.
    rewrite (analyze_of_attempt_ok ext _ _
               (t ++ [UploadRead; ImageOpen; GenerateContent MODEL_NAME;
                      ResponseText]) []).
    + rewrite JSONResponse_of_response_data. reflexivity.
    + rewrite analysis_attempt_run, Hopen, Hmodel, Htext, Hblank.
      tidy_trace. reflexivity.
  - split; [reflexivity|]. simpl. apply response_data_plate; discriminate.
Qed.

End Adapter.

(** ** Start-up *)

Section Startup.

Context {image response : Type}.
Variable ext : External image response.
Variable FALLBACK_API_KEY : str.

(** The key the module settles on, from the value of the variable. *)
Lemma module_init_run (environ : gmap string str) (t : trace) :
  let key :=
    if py_not (environ !! "GOOGLE_API_KEY") then FALLBACK_API_KEY
    else default [] (environ !! "GOOGLE_API_KEY") in
  module_init ext FALLBACK_API_KEY environ t =
    match genai_configure ext key with
    | inr _ => (t ++ [EnvGet "GOOGLE_API_KEY"; Configure key], inr key)
    | inl e =>
        (t ++ [EnvGet "GOOGLE_API_KEY"; Configure key;
               Print (configure_failed_line e)], inr key)
    end.
Proof.
  cbv zeta. run.
  destruct (genai_configure ext _) as [e|[]]; tidy_trace; reflexivity.
Qed.

(** C8. Importing the module reads [GOOGLE_API_KEY] from the environment
    once, before anything else, and always completes, also when
    configuring the client raises.  The key it settles on comes from what
    it read: a variable set to a non-empty value is the key, and when the
    variable is absent the key is the literal written in the source.
    That key is what the client is configured with, once. *)
Theorem startup_reads_once_and_falls_back
    (environ : gmap string str) (t : trace) :
  exists evs key,
    module_init ext FALLBACK_API_KEY environ t = (t ++ evs, inr key)
    /\ evs = EnvGet "GOOGLE_API_KEY" :: Configure key ::
             match genai_configure ext key with
             | inl e => [Print (configure_failed_line e)]
             | inr _ => []
             end
    /\ occurrences is_EnvGet evs = 1%nat
    /\ occurrences is_Configure evs = 1%nat
    /\ (forall k, environ !! "GOOGLE_API_KEY" = Some k -> k <> [] -> key = k)
    /\ (environ !! "GOOGLE_API_KEY" = None ->
        key = FALLBACK_API_KEY /\ Configure FALLBACK_API_KEY ∈ evs).
Proof.
  pose proof (module_init_run environ t) as Hrun. cbv zeta in Hrun.
  set (key := if py_not (environ !! "GOOGLE_API_KEY") then FALLBACK_API_KEY
              else default [] (environ !! "GOOGLE_API_KEY")) in *.
  assert (Hset : forall k,
             environ !! "GOOGLE_API_KEY" = Some k -> k <> [] -> key = k).
  { intros k Hk Hne. subst key. rewrite Hk.
    destruct k as [|c k]; [congruence | reflexivity]. }
  assert (Hkey : environ !! "GOOGLE_API_KEY" = None -> key = FALLBACK_API_KEY).
  { intros Habsent. subst key. rewrite Habsent. reflexivity. }
  exists (EnvGet "GOOGLE_API_KEY" :: Configure key ::
            match genai_configure ext key with
            | inl e => [Print (configure_failed_line e)]
            | inr _ => []
            end), key.
  split; [rewrite Hrun; destruct (genai_configure ext key); reflexivity|].
  split; [reflexivity|].
  split; [destruct (genai_configure ext key); count_events|].
  split; [destruct (genai_configure ext key); count_events|].
  split; [exact Hset|].
  intros Habsent. split; [auto|]. rewrite <- (Hkey Habsent).
  apply elem_of_cons. right. apply elem_of_cons. left. reflexivity.
Qed.

(** C10. A variable that is set to the empty string is read and then not
    used: the key start-up returns and configures the client with, once,
    is the literal of the source, and the whole start-up runs as it does
    when the variable is not set at all. *)
Theorem empty_variable_falls_back
    (environ : gmap string str) (t : trace)
    (Hempty : environ !! "GOOGLE_API_KEY" = Some []) :
  (exists evs,
      module_init ext FALLBACK_API_KEY environ t
      = (t ++ evs, inr FALLBACK_API_KEY)
      /\ evs = EnvGet "GOOGLE_API_KEY" :: Configure FALLBACK_API_KEY ::
               match genai_configure ext FALLBACK_API_KEY with
               | inl e => [Print (configure_failed_line e)]
               | inr _ => []
               end
      /\ occurrences is_EnvGet evs = 1%nat
      /\ occurrences is_Configure evs = 1%nat
      /\ Configure FALLBACK_API_KEY ∈ evs)
  /\ snd (module_init ext FALLBACK_API_KEY environ t) = inr FALLBACK_API_KEY
  /\ module_init ext FALLBACK_API_KEY environ t
     = module_init ext FALLBACK_API_KEY (delete "GOOGLE_API_KEY" environ) t.
Proof.
  rewrite !module_init_run. cbv zeta.
  rewrite Hempty, lookup_delete_eq. simpl.
  destruct (genai_configure ext FALLBACK_API_KEY) as [e|u].
  - split; [|split; reflexivity].
    eexists. split; [reflexivity|]. split; [reflexivity|].
    split; [count_events|]. split; [count_events|]. set_solver.
  - split; [|split; reflexivity].
    eexists. split; [reflexivity|]. split; [reflexivity|].
    split; [count_events|]. split; [count_events|]. set_solver.
Qed.

End Startup.

(** ** The definitions at work on the sample worlds *)

Import Samples.

(** A clear plate: the reply is trimmed and returned as the number. *)
Example scenario_clear_plate :
  let run := handle_analysis_request (answering (lit " MH12AB3456 ")) photo [] in
  fst run = [UploadRead; ImageOpen; GenerateContent MODEL_NAME; ResponseText]
  /\ snd run =
       inr (mkJSONResponse
              {[ "code" := lit "SUCCESS";
                 "message" := lit "Successfully extracted vehicle number.";
                 "vehicle_number" := lit "MH12AB3456" ]}
              200).
Proof.
  cbv zeta. rewrite handle_run. split; [reflexivity|].
  simpl. change (strip (lit " MH12AB3456 ")) with (lit "MH12AB3456").
  rewrite JSONResponse_of_response_data.
  rewrite response_data_plate by discriminate. reflexivity.
Qed.

(** The comparison is exact: the reserved word in lower case is a plate. *)
Example scenario_lower_case_sentinel :
  response_data_of (lit "no_vehicle_found") !! "code" = Some (lit "SUCCESS")
  /\ response_data_of (lit "no_vehicle_found") !! "vehicle_number"
     = Some (lit "no_vehicle_found").
Proof.
  rewrite response_data_code, response_data_vehicle_number.
  split; reflexivity.
Qed.

(** A body that is not an image: one printed line, then the error. *)
Example scenario_not_an_image :
  handle_analysis_request (answering (lit "MH12AB3456")) empty_upload []
  = ([UploadRead; ImageOpen; Print (analysis_failed_line cannot_identify)],
     inl (RaisedHTTP (mkHTTPException 500 cannot_identify))).
Proof. rewrite handle_run. reflexivity. Qed.

(** [strip] on a reply wrapped in spaces, a tab and a no-break space. *)
Example strip_sample :
  strip ([32; 9; 160] ++ lit "KA 01" ++ [10; 8232])%N = lit "KA 01".
Proof. reflexivity. Qed.

(** The exception object the adapter raises holds the exception it
    caught; the client sees none of it. *)
Example scenario_error_object_and_answer :
  analyze_vehicle_image out_of_quota (file photo) []
  = ([ImageOpen; GenerateContent MODEL_NAME;
      Print (analysis_failed_line quota_exceeded)],
     inl (mkHTTPException 500 quota_exceeded))
  /\ sent_to_client (inl (RaisedHTTP (mkHTTPException 500 quota_exceeded)))
     = sent_to_client (inl (RaisedHTTP (mkHTTPException 500 cannot_identify))).
Proof. split; reflexivity. Qed.

(** ** Instances of the theorems *)

Lemma handler_classifies_reply_witness :
  analyze_vehicle_image (answering (lit "MH12AB3456")) (file photo)
    ([] ++ [UploadRead])
  = ([UploadRead; ImageOpen; GenerateContent MODEL_NAME; ResponseText],
     inr (lit "MH12AB3456"))
  /\ utf8_encodable (lit "MH12AB3456") = true
  /\ exists resp,
       handle_analysis_request (answering (lit "MH12AB3456")) photo []
       = ([UploadRead; ImageOpen; GenerateContent MODEL_NAME; ResponseText],
          inr resp)
       /\ http_status_of_response (inr resp) = 200
       /\ content resp =
            {[ "code" := lit "SUCCESS";
               "message" := lit "Successfully extracted vehicle number.";
               "vehicle_number" := lit "MH12AB3456" ]}.
Proof.
  split; [reflexivity|]. split; [reflexivity|].
  destruct (handler_classifies_reply (answering (lit "MH12AB3456")) photo []
              [UploadRead; ImageOpen; GenerateContent MODEL_NAME; ResponseText]
              (lit "MH12AB3456") eq_refl eq_refl)
    as (resp & Hrun & Hstatus & _ & _ & _ & Hplate).
  exists resp. split; [exact Hrun|]. split; [exact Hstatus|].
  apply Hplate; discriminate.
Defined.

(** C1, as the specification words it, fails for a reply that holds a
    surrogate code point: it is none of the two reserved strings, yet the
    request ends with a [UnicodeEncodeError] and status 500 instead of a
    [SUCCESS] payload with status 200. *)
Lemma surrogate_reply_is_not_answered_200 :
  analyze_vehicle_image (answering [55296%N]) (file photo) ([] ++ [UploadRead])
  = ([UploadRead; ImageOpen; GenerateContent MODEL_NAME; ResponseText],
     inr [55296%N])
  /\ [55296%N] <> lit "NO_VEHICLE_FOUND"
  /\ [55296%N] <> lit "PLATE_UNREADABLE"
  /\ handle_analysis_request (answering [55296%N]) photo []
     = ([UploadRead; ImageOpen; GenerateContent MODEL_NAME; ResponseText],
        inl UnicodeEncodeError)
  /\ http_status_of_response
       (snd (handle_analysis_request (answering [55296%N]) photo [])) = 500.
Proof.
  split; [reflexivity|]. split; [discriminate|]. split; [discriminate|].
  assert (Hrun :
    handle_analysis_request (answering [55296%N]) photo []
    = ([UploadRead; ImageOpen; GenerateContent MODEL_NAME; ResponseText],
       inl UnicodeEncodeError)).
  { rewrite handle_run. simpl.
    change (strip [55296%N]) with [55296%N].
    rewrite JSONResponse_of_response_data. reflexivity. }
  split; [exact Hrun|]. rewrite Hrun. reflexivity.
Qed.


Lemma vehicle_number_iff_success_witness :
  handle_analysis_request (answering (lit "NO_VEHICLE_FOUND")) photo []
  = ([UploadRead; ImageOpen; GenerateContent MODEL_NAME; ResponseText],
     inr (mkJSONResponse (response_data_of (lit "NO_VEHICLE_FOUND")) 200))
  /\ (is_Some (response_data_of (lit "NO_VEHICLE_FOUND") !! "vehicle_number")
      <-> response_data_of (lit "NO_VEHICLE_FOUND") !! "code"
          = Some (lit "SUCCESS")).
Proof.
  assert (Hrun :
    handle_analysis_request (answering (lit "NO_VEHICLE_FOUND")) photo []
    = ([UploadRead; ImageOpen; GenerateContent MODEL_NAME; ResponseText],
       inr (mkJSONResponse (response_data_of (lit "NO_VEHICLE_FOUND")) 200))).
  { rewrite handle_run. simpl.
    change (strip (lit "NO_VEHICLE_FOUND")) with (lit "NO_VEHICLE_FOUND").
    rewrite JSONResponse_of_response_data. reflexivity. }
  split; [exact Hrun|].
  exact (proj1 (vehicle_number_iff_success _ _ _ _ _ Hrun)).
Defined.

Lemma adapter_trims_and_handler_keeps_witness :
  PIL_Image_open (answering (lit "  KA01AB1234 ")) (file photo)
  = inr (file photo)
  /\ generate_content (answering (lit "  KA01AB1234 ")) MODEL_NAME prompt
       (file photo) = inr (lit "  KA01AB1234 ")
  /\ response_text (answering (lit "  KA01AB1234 ")) (lit "  KA01AB1234 ")
     = inr (lit "  KA01AB1234 ")
  /\ analyze_vehicle_image (answering (lit "  KA01AB1234 ")) (file photo)
       ([] ++ [UploadRead])
     = ([UploadRead; ImageOpen; GenerateContent MODEL_NAME; ResponseText],
        inr (strip (lit "  KA01AB1234 ")))
  /\ strip (lit "  KA01AB1234 ") = lit "KA01AB1234"
  /\ exists resp,
       handle_analysis_request (answering (lit "  KA01AB1234 ")) photo []
       = ([UploadRead; ImageOpen; GenerateContent MODEL_NAME; ResponseText],
          inr resp)
       /\ content resp !! "vehicle_number" = Some (lit "KA01AB1234").
Proof.
  do 3 (split; [reflexivity|]).
  pose proof (adapter_trims_and_handler_keeps
                (answering (lit "  KA01AB1234 ")) photo []
                (file photo) (lit "  KA01AB1234 ") (lit "  KA01AB1234 ")
                eq_refl eq_refl eq_refl) as H.
  cbv zeta in H. destruct H as (Hadapter & _ & Hhandler).
  split; [exact Hadapter|]. split; [reflexivity|].
  destruct Hhandler as (resp & Hrun & _ & _ & Hnumber);
    [discriminate | discriminate | discriminate | reflexivity |].
  exists resp. split; [exact Hrun | exact Hnumber].
Defined.

(** C4, as the specification words it, fails for a reply that holds a
    surrogate code point: the adapter returns it trimmed, it is not
    empty and none of the reserved strings, yet the handler ends with a
    [UnicodeEncodeError] and sends no [vehicle_number]. *)
Lemma surrogate_plate_is_not_sent :
  response_text (answering [32; 55296; 32]%N) [32; 55296; 32]%N
  = inr [32; 55296; 32]%N
  /\ strip [32; 55296; 32]%N = [55296%N]
  /\ analyze_vehicle_image (answering [32; 55296; 32]%N) (file photo)
       ([] ++ [UploadRead])
     = ([UploadRead; ImageOpen; GenerateContent MODEL_NAME; ResponseText],
        inr [55296%N])
  /\ [55296%N] <> []
  /\ [55296%N] <> lit "NO_VEHICLE_FOUND"
  /\ [55296%N] <> lit "PLATE_UNREADABLE"
  /\ forall resp,
       snd (handle_analysis_request (answering [32; 55296; 32]%N) photo [])
       <> inr resp.
Proof.
  do 3 (split; [reflexivity|]).
  do 3 (split; [discriminate|]).
  intros resp. rewrite handle_run. simpl.
  change (strip [32; 55296; 32]%N) with [55296%N].
  rewrite JSONResponse_of_response_data. discriminate.
Qed.

Lemma handler_deterministic_witness :
  analyze_vehicle_image (answering (lit "KA01AB1234")) (file photo)
    ([] ++ [UploadRead])
  = ([UploadRead; ImageOpen; GenerateContent MODEL_NAME; ResponseText],
     inr (lit "KA01AB1234"))
  /\ analyze_vehicle_image (answering (lit " KA01AB1234  ")) (file photo)
       ([Print (lit "earlier request")] ++ [UploadRead])
     = ([Print (lit "earlier request"); UploadRead; ImageOpen;
         GenerateContent MODEL_NAME; ResponseText],
        inr (lit "KA01AB1234"))
  /\ snd (handle_analysis_request (answering (lit "KA01AB1234")) photo [])
     = snd (handle_analysis_request (answering (lit " KA01AB1234  ")) photo
              [Print (lit "earlier request")]).
Proof.
  split; [reflexivity|]. split; [reflexivity|].
  exact (proj1
    (handler_deterministic (answering (lit "KA01AB1234"))
       (answering (lit " KA01AB1234  ")) photo
       [] [UploadRead; ImageOpen; GenerateContent MODEL_NAME; ResponseText]
       [Print (lit "earlier request")]
       [Print (lit "earlier request"); UploadRead; ImageOpen;
        GenerateContent MODEL_NAME; ResponseText]
       (lit "KA01AB1234") eq_refl eq_refl)).
Defined.

Lemma startup_reads_once_and_falls_back_witness :
  (∅ : gmap string str) !! "GOOGLE_API_KEY" = None
  /\ exists evs,
       module_init misconfigured some_key ∅ [] = (evs, inr some_key)
       /\ occurrences is_EnvGet evs = 1%nat
       /\ Configure some_key ∈ evs.
Proof.
  split; [reflexivity|].
  destruct (startup_reads_once_and_falls_back misconfigured some_key ∅ [])
    as (evs & key & Hrun & _ & Honce & _ & _ & Hfallback).
  destruct (Hfallback eq_refl) as [-> Hconf].
  exists evs. split; [exact Hrun|]. split; [exact Honce | exact Hconf].
Defined.

Lemma empty_reply_is_success_witness :
  strip (lit "  ") = []
  /\ exists resp,
       handle_analysis_request (answering (lit "  ")) photo []
       = ([UploadRead; ImageOpen; GenerateContent MODEL_NAME; ResponseText],
          inr resp)
       /\ resp_status_code resp = 200
       /\ content resp =
            {[ "code" := lit "SUCCESS";
               "message" := lit "Successfully extracted vehicle number.";
               "vehicle_number" := [] ]}.
Proof.
  split; [reflexivity|].
  exact (empty_reply_is_success (answering (lit "  ")) photo []
           (file photo) (lit "  ") (lit "  ")
           eq_refl eq_refl eq_refl eq_refl).
Defined.

Lemma empty_variable_falls_back_witness :
  ({[ "GOOGLE_API_KEY" := [] ]} : gmap string str) !! "GOOGLE_API_KEY"
  = Some []
  /\ snd (module_init (answering (lit "MH12AB3456")) some_key
            {[ "GOOGLE_API_KEY" := [] ]} [])
     = inr some_key.
Proof.
  split; [reflexivity|].
  exact (proj1 (proj2
    (empty_variable_falls_back (answering (lit "MH12AB3456")) some_key
       {[ "GOOGLE_API_KEY" := [] ]} [] eq_refl))).
Defined.

(** * Further properties of the program *)

(** ** More about [strip] *)

Lemma lstrip_all_space (l : str) :
  Forall (fun c => isspace c = true) l -> lstrip l = [].
Proof.
  induction 1 as [|c l Hc _ IH]; simpl; [reflexivity|].
  rewrite Hc. exact IH.
Qed.

Lemma lstrip_space_app (l s : str) :
  Forall (fun c => isspace c = true) l -> lstrip (l ++ s) = lstrip s.
Proof.
  induction 1 as [|c l Hc _ IH]; simpl; [reflexivity|].
  rewrite Hc. exact IH.
Qed.

Lemma Forall_space_rev (r : str) :
  Forall (fun c => isspace c = true) r ->
  Forall (fun c => isspace c = true) (rev r).
Proof.
  rewrite !Forall_forall. intros H c Hc. apply H.
  rewrite list_elem_of_In in *. apply in_rev. exact Hc.
Qed.

Lemma rstrip_app_space (s r : str) :
  Forall (fun c => isspace c = true) r -> rstrip (s ++ r) = rstrip s.
Proof.
  intros Hr. unfold rstrip. rewrite rev_app_distr.
  rewrite lstrip_space_app by (apply Forall_space_rev; exact Hr).
  reflexivity.
Qed.

Lemma rstrip_nil : rstrip [] = [].
Proof. reflexivity. Qed.

(** Whitespace added at either end is cut off again. *)
Lemma strip_padding (l s r : str) :
  Forall (fun c => isspace c = true) l ->
  Forall (fun c => isspace c = true) r ->
  strip (l ++ s ++ r) = strip s.
Proof.
  intros Hl Hr. unfold strip. rewrite lstrip_space_app by exact Hl.
  clear l Hl. induction s as [|c s IH]; simpl.
  - rewrite lstrip_all_space by exact Hr. reflexivity.
  - destruct (isspace c) eqn:Hc; [exact IH|].
    change (c :: s ++ r) with ((c :: s) ++ r).
    apply rstrip_app_space. exact Hr.
Qed.

Lemma lstrip_fixed (s : str) :
  (forall c, head s = Some c -> isspace c = false) -> lstrip s = s.
Proof.
  destruct s as [|c s]; simpl; [reflexivity|].
  intros H. rewrite (H c eq_refl). reflexivity.
Qed.

Lemma rstrip_fixed (s : str) :
  (forall c, last s = Some c -> isspace c = false) -> rstrip s = s.
Proof.
  intros H. unfold rstrip. rewrite lstrip_fixed.
  - apply rev_involutive.
  - intros c Hc. apply H.
    rewrite <- (rev_involutive s), last_rev_head. exact Hc.
Qed.

(** A text that neither starts nor ends with whitespace is left alone. *)
Lemma strip_fixed (s : str) :
  (forall c, head s = Some c -> isspace c = false) ->
  (forall c, last s = Some c -> isspace c = false) ->
  strip s = s.
Proof.
  intros Hh Hl. unfold strip. rewrite lstrip_fixed by exact Hh.
  apply rstrip_fixed. exact Hl.
Qed.

Lemma strip_idempotent (s : str) : strip (strip s) = strip s.
Proof.
  destruct (strip_spec s) as (l & r & _ & _ & _ & Hh & Hl).
  apply strip_fixed; assumption.
Qed.

(** ** A whole request, case by case *)

Section Requests.

Context {image response : Type}.
Variable ext : External image response.

(** The ways a request can go, read off the three library calls and the
    construction of the response. *)
Lemma handle_cases (img : UploadFile) (t : trace) :
  handle_analysis_request ext img t =
    match PIL_Image_open ext (file img) with
    | inl e =>
        (t ++ [UploadRead; ImageOpen; Print (analysis_failed_line e)],
         inl (RaisedHTTP (mkHTTPException 500 e)))
    | inr decoded =>
        match generate_content ext MODEL_NAME prompt decoded with
        | inl e =>
            (t ++ [UploadRead; ImageOpen; GenerateContent MODEL_NAME;
                   Print (analysis_failed_line e)],
             inl (RaisedHTTP (mkHTTPException 500 e)))
        | inr reply =>
            match response_text ext reply with
            | inl e =>
                (t ++ [UploadRead; ImageOpen; GenerateContent MODEL_NAME;
                       ResponseText; Print (analysis_failed_line e)],
                 inl (RaisedHTTP (mkHTTPException 500 e)))
            | inr text =>
                (t ++ [UploadRead; ImageOpen; GenerateContent MODEL_NAME;
                       ResponseText],
                 JSONResponse_of (response_data_of (strip text)))
            end
        end
    end.
Proof.
  rewrite handle_run. unfold analyze_vehicle_image, try_except.
  rewrite analysis_attempt_run. unfold BytesIO.
  destruct (PIL_Image_open ext (file img)) as [e|decoded].
  { run. tidy_trace. reflexivity. }
  destruct (generate_content ext MODEL_NAME prompt decoded) as [e|reply].
  { run. tidy_trace. reflexivity. }
  destruct (response_text ext reply) as [e|text];
    run; tidy_trace; reflexivity.
Qed.

End Requests.

(** ** What one request does and answers

    As everywhere in this file, the read of the uploaded body succeeds
    and the libraries raise instances of [Exception] only. *)

Section RequestProperties.

Context {image response : Type}.
Variable ext : External image response.

(** X1. What the client of one request receives is decided by the [try]
    block and the reply.  If the block raises [e], the request ends with
    the [HTTPException] 500 of line 69 and the client receives the fixed
    server-error answer.  If the block returns a reply that holds a
    surrogate code point, building the response raises and the client
    receives the same fixed answer.  Otherwise the client receives status
    200 with the dictionary built from the reply.  No other status or
    body is sent. *)
Theorem request_ends_200_or_500 (img : UploadFile) (t : trace) :
  let out := handle_analysis_request ext img t in
  let attempt := analysis_attempt ext (file img) (t ++ [UploadRead]) in
  match snd attempt with
  | inl e =>
      out = (fst attempt ++ [Print (analysis_failed_line e)],
             inl (RaisedHTTP (mkHTTPException 500 e)))
      /\ sent_to_client (snd out) = internal_server_error
  | inr r =>
      if utf8_encodable r then
        out = (fst attempt, inr (mkJSONResponse (response_data_of r) 200))
        /\ sent_to_client (snd out) = mkWire 200 (JsonBody (response_data_of r))
      else
        out = (fst attempt, inl UnicodeEncodeError)
        /\ sent_to_client (snd out) = internal_server_error
  end.
Proof.
  cbv zeta. rewrite handle_run.
  destruct (analysis_attempt ext (file img) (t ++ [UploadRead]))
    as [t1 [e|r]] eqn:Hattempt; simpl.
  - rewrite (analyze_of_attempt_raise ext _ _ _ _ Hattempt).
    split; reflexivity.
  - rewrite (analyze_of_attempt_ok ext _ _ _ _ Hattempt).
    rewrite JSONResponse_of_response_data.
    destruct (utf8_encodable r); split; reflexivity.
Qed.

(** X2. An upload the decoder rejects costs no model call: the request
    reads the body, tries to decode it, prints the error and ends with
    status 500, and neither [generate_content] nor [response.text] is
    reached. *)
Theorem undecodable_upload_skips_model (img : UploadFile) (t : trace) (e : exn)
    (Hdecode : PIL_Image_open ext (file img) = inl e) :
  exists evs,
    handle_analysis_request ext img t
    = (t ++ evs, inl (RaisedHTTP (mkHTTPException 500 e)))
    /\ evs = [UploadRead; ImageOpen; Print (analysis_failed_line e)]
    /\ occurrences is_GenerateContent evs = 0%nat
    /\ occurrences is_ResponseText evs = 0%nat.
Proof.
  eexists. rewrite handle_cases, Hdecode.
  split; [reflexivity|]. split; [reflexivity|]. count_events.
Qed.

(** X3. One request reads the upload once and first, opens the image
    once, calls the model at most once, reads the reply's text at most
    once, never reads the environment and never configures the client; it
    prints exactly one line when it ends with the adapter's
    [HTTPException] and none otherwise. *)
Theorem request_effects_bounded (img : UploadFile) (t : trace) :
  exists evs,
    fst (handle_analysis_request ext img t) = t ++ evs
    /\ head evs = Some UploadRead
    /\ occurrences is_UploadRead evs = 1%nat
    /\ occurrences is_ImageOpen evs = 1%nat
    /\ (occurrences is_GenerateContent evs <= 1)%nat
    /\ (occurrences is_ResponseText evs <= 1)%nat
    /\ occurrences is_EnvGet evs = 0%nat
    /\ occurrences is_Configure evs = 0%nat
    /\ occurrences is_Print evs
       = match snd (handle_analysis_request ext img t) with
         | inl (RaisedHTTP _) => 1%nat
         | inl UnicodeEncodeError => 0%nat
         | inr _ => 0%nat
         end.
Proof.
  rewrite handle_cases.
  destruct (PIL_Image_open ext (file img)) as [e|decoded].
  { eexists. split; [reflexivity|]. count_events. }
  destruct (generate_content ext MODEL_NAME prompt decoded) as [e|reply].
  { eexists. split; [reflexivity|]. count_events. }
  destruct (response_text ext reply) as [e|text].
  { eexists. split; [reflexivity|]. count_events. }
  eexists. split; [reflexivity|]. simpl.
  rewrite JSONResponse_of_response_data.
  destruct (utf8_encodable (strip text)); count_events.
Qed.

(** X4. Whitespace around the model's reply never changes the answer:
    a reply [l ++ core ++ r] with [l] and [r] made of whitespace is
    answered exactly as the reply [core] is, in particular a reserved
    string is still recognised when the model wraps it in spaces or line
    breaks. *)
Theorem reply_padding_ignored
    (img : UploadFile) (t : trace)
    (decoded : image) (reply : response) (l core r : str)
    (Hopen : PIL_Image_open ext (file img) = inr decoded)
    (Hmodel : generate_content ext MODEL_NAME prompt decoded = inr reply)
    (Htext : response_text ext reply = inr (l ++ core ++ r))
    (Hl : Forall (fun c => isspace c = true) l)
    (Hr : Forall (fun c => isspace c = true) r) :
  snd (handle_analysis_request ext img t)
  = JSONResponse_of (response_data_of (strip core)).
Proof.
  rewrite handle_cases, Hopen, Hmodel, Htext. simpl.
  rewrite strip_padding by assumption. reflexivity.
Qed.

(** X5. A [vehicle_number] that the handler sends is never one of the two
    reserved strings and never starts or ends with whitespace; trimming it
    again changes nothing. *)
Theorem vehicle_number_is_trimmed_plate
    (img : UploadFile) (t t' : trace) (resp : JSONResponse) (v : str)
    (Hrun : handle_analysis_request ext img t = (t', inr resp))
    (Hnumber : content resp !! "vehicle_number" = Some v) :
  v <> lit "NO_VEHICLE_FOUND"
  /\ v <> lit "PLATE_UNREADABLE"
  /\ (forall c, head v = Some c -> isspace c = false)
  /\ (forall c, last v = Some c -> isspace c = false)
  /\ strip v = v.
Proof.
  rewrite handle_cases in Hrun.
  destruct (PIL_Image_open ext (file img)) as [e|decoded]; [discriminate|].
  destruct (generate_content ext MODEL_NAME prompt decoded) as [e|reply];
    [discriminate|].
  destruct (response_text ext reply) as [e|text]; [discriminate|].
  rewrite JSONResponse_of_response_data in Hrun.
  destruct (utf8_encodable (strip text)); [|discriminate].
  injection Hrun as _ <-. simpl in Hnumber.
  rewrite response_data_vehicle_number in Hnumber.
  destruct (eqb (strip text) (lit "NO_VEHICLE_FOUND")) eqn:H1;
    [discriminate|].
  destruct (eqb (strip text) (lit "PLATE_UNREADABLE")) eqn:H2;
    [discriminate|].
  injection Hnumber as <-.
  apply eqb_neq in H1. apply eqb_neq in H2.
  destruct (strip_spec text) as (l & r & _ & _ & _ & Hh & Hl).
  repeat split; try assumption. apply strip_idempotent.
Qed.

End RequestProperties.

(** ** More about start-up *)

Section StartupProperties.

Context {image response : Type}.
Variable ext : External image response.
Variable FALLBACK_API_KEY : str.

(** X6. A variable that is set to a non-empty value is the key: start-up
    returns it, passes it to [genai.configure], and the literal of the
    source is not what the client is configured with (unless the two are
    the same string). *)
Theorem set_variable_is_used
    (environ : gmap string str) (t : trace) (k : str)
    (Hset : environ !! "GOOGLE_API_KEY" = Some k)
    (Hnonempty : k <> []) :
  exists evs,
    module_init ext FALLBACK_API_KEY environ t = (t ++ evs, inr k)
    /\ Configure k ∈ evs
    /\ (k <> FALLBACK_API_KEY -> Configure FALLBACK_API_KEY ∉ evs).
Proof.
  pose proof (module_init_run ext FALLBACK_API_KEY environ t) as Hrun.
  cbv zeta in Hrun. rewrite Hset in Hrun.
  destruct k as [|c k]; [congruence|]. simpl in Hrun.
  destruct (genai_configure ext (c :: k)) as [e|u];
    eexists; (split; [exact Hrun|]);
    (split; [set_solver|]); intros Hne Hin;
    repeat (apply elem_of_cons in Hin as [Hin|Hin]; [congruence|]);
    apply elem_of_nil in Hin; exact Hin.
Qed.


(** X8. As long as the literal of the source is not empty, the client is
    never configured with an empty key, whatever the environment holds. *)
Theorem configure_never_gets_empty_key
    (environ : gmap string str) (t evs : trace) (o : exn + str) (k : str)
    (Hliteral : FALLBACK_API_KEY <> [])
    (Hrun : module_init ext FALLBACK_API_KEY environ t = (t ++ evs, o))
    (Hconfigured : Configure k ∈ evs) :
  k <> [] /\ o = inr k.
Proof.
  rewrite module_init_run in Hrun. cbv zeta in Hrun.
  set (key := if py_not (environ !! "GOOGLE_API_KEY") then FALLBACK_API_KEY
              else default [] (environ !! "GOOGLE_API_KEY")) in *.
  assert (Hkey : key <> []).
  { subst key. destruct (environ !! "GOOGLE_API_KEY") as [[|c s]|]; simpl;
      [assumption | discriminate | assumption]. }
  assert (Hk : k = key /\ o = inr key).
  { destruct (genai_configure ext key) as [e|u];
      injection Hrun as Hevs <-; apply app_inv_head in Hevs; subst evs;
      rewrite !elem_of_cons, elem_of_nil in Hconfigured;
      destruct Hconfigured as [Hc|[Hc|Hc]]; try discriminate;
      try (destruct Hc as [Hc|Hc]; [discriminate | contradiction]);
      try contradiction;
      injection Hc as ->; split; reflexivity. }
  destruct Hk as [-> ->]. split; [exact Hkey | reflexivity].
Qed.

End StartupProperties.

(** ** Instances of the further properties *)

Lemma undecodable_upload_skips_model_witness :
  PIL_Image_open (answering (lit "MH12AB3456")) (file empty_upload)
  = inl cannot_identify
  /\ exists evs,
       handle_analysis_request (answering (lit "MH12AB3456")) empty_upload []
       = ([] ++ evs, inl (RaisedHTTP (mkHTTPException 500 cannot_identify)))
       /\ evs = [UploadRead; ImageOpen;
                 Print (analysis_failed_line cannot_identify)]
       /\ occurrences is_GenerateContent evs = 0%nat
       /\ occurrences is_ResponseText evs = 0%nat.
Proof.
  split; [reflexivity|].
  exact (undecodable_upload_skips_model (answering (lit "MH12AB3456"))
           empty_upload [] cannot_identify eq_refl).
Defined.

Lemma reply_padding_ignored_witness :
  response_text
    (answering ([10; 32] ++ lit "NO_VEHICLE_FOUND" ++ [32; 10])%N)
    ([10; 32] ++ lit "NO_VEHICLE_FOUND" ++ [32; 10])%N
  = inr ([10; 32] ++ lit "NO_VEHICLE_FOUND" ++ [32; 10])%N
  /\ Forall (fun c => isspace c = true) [10; 32]%N
  /\ Forall (fun c => isspace c = true) [32; 10]%N
  /\ snd (handle_analysis_request
            (answering ([10; 32] ++ lit "NO_VEHICLE_FOUND" ++ [32; 10])%N)
            photo [])
     = JSONResponse_of (response_data_of (strip (lit "NO_VEHICLE_FOUND"))).
Proof.
  split; [reflexivity|].
  split; [repeat constructor|].
  split; [repeat constructor|].
  apply (reply_padding_ignored
           (answering ([10; 32] ++ lit "NO_VEHICLE_FOUND" ++ [32; 10])%N)
           photo [] (file photo)
           ([10; 32] ++ lit "NO_VEHICLE_FOUND" ++ [32; 10])%N
           [10; 32]%N (lit "NO_VEHICLE_FOUND") [32; 10]%N).
  - reflexivity.
  - reflexivity.
  - reflexivity.
  - repeat constructor.
  - repeat constructor.
Defined.

Lemma vehicle_number_is_trimmed_plate_witness :
  handle_analysis_request (answering (lit " MH12AB3456 ")) photo []
  = ([UploadRead; ImageOpen; GenerateContent MODEL_NAME; ResponseText],
     inr (mkJSONResponse (response_data_of (lit "MH12AB3456")) 200))
  /\ content (mkJSONResponse (response_data_of (lit "MH12AB3456")) 200)
       !! "vehicle_number" = Some (lit "MH12AB3456")
  /\ strip (lit "MH12AB3456") = lit "MH12AB3456".
Proof.
  assert (Hrun :
    handle_analysis_request (answering (lit " MH12AB3456 ")) photo []
    = ([UploadRead; ImageOpen; GenerateContent MODEL_NAME; ResponseText],
       inr (mkJSONResponse (response_data_of (lit "MH12AB3456")) 200))).
  { rewrite handle_cases. simpl.
    change (strip (lit " MH12AB3456 ")) with (lit "MH12AB3456").
    rewrite JSONResponse_of_response_data. reflexivity. }
  assert (Hnumber :
    content (mkJSONResponse (response_data_of (lit "MH12AB3456")) 200)
      !! "vehicle_number" = Some (lit "MH12AB3456")).
  { simpl. rewrite response_data_vehicle_number. reflexivity. }
  split; [exact Hrun|]. split; [exact Hnumber|].
  exact (proj2 (proj2 (proj2 (proj2
    (vehicle_number_is_trimmed_plate (answering (lit " MH12AB3456 ")) photo
       [] _ _ (lit "MH12AB3456") Hrun Hnumber))))).
Defined.

Lemma set_variable_is_used_witness :
  ({[ "GOOGLE_API_KEY" := lit "key-from-env" ]} : gmap string str)
    !! "GOOGLE_API_KEY" = Some (lit "key-from-env")
  /\ lit "key-from-env" <> []
  /\ exists evs,
       module_init misconfigured some_key
         {[ "GOOGLE_API_KEY" := lit "key-from-env" ]} []
       = ([] ++ evs, inr (lit "key-from-env"))
       /\ Configure (lit "key-from-env") ∈ evs
       /\ (lit "key-from-env" <> some_key -> Configure some_key ∉ evs).
Proof.
  split; [reflexivity|]. split; [discriminate|].
  apply (set_variable_is_used misconfigured some_key
           {[ "GOOGLE_API_KEY" := lit "key-from-env" ]} []
           (lit "key-from-env")).
  - reflexivity.
  - discriminate.
Defined.

Lemma configure_never_gets_empty_key_witness :
  some_key <> []
  /\ module_init (answering (lit "MH12AB3456")) some_key ∅ []
     = ([] ++ [EnvGet "GOOGLE_API_KEY"; Configure some_key], inr some_key)
  /\ Configure some_key ∈ [EnvGet "GOOGLE_API_KEY"; Configure some_key]
  /\ inr some_key = (inr some_key : exn + str).
Proof.
  assert (Hin :
    Configure some_key ∈ [EnvGet "GOOGLE_API_KEY"; Configure some_key]).
  { apply elem_of_cons. right. apply elem_of_cons. left. reflexivity. }
  split; [discriminate|]. split; [reflexivity|]. split; [exact Hin|].
  exact (proj2
    (configure_never_gets_empty_key (answering (lit "MH12AB3456")) some_key
       ∅ [] [EnvGet "GOOGLE_API_KEY"; Configure some_key] (inr some_key)
       some_key ltac:(discriminate) eq_refl Hin)).
Defined.
